(** * The calculator and greeting agent (src/app/agent.py, src/app/__main__.py)

    A shallow embedding of the two tool functions, of the progress streamer
    [stream] and of the completion classifier [get_agent_response] of
    [CalculatorGreetingAgent], and of the startup command [main], with the
    properties of them that the specification states and further ones that
    the code shows.

    Conventions of the embedding.
    - A Python [str] is a [string] holding its UTF-8 encoding.  A keyword of
      the classifier is ASCII, and UTF-8 never uses an ASCII byte inside the
      encoding of another code point, so searching the bytes for a keyword is
      searching the code points for it.
    - A Python [float] is a binary64 number, Rocq's primitive [float].
    - A dict with string keys is a [gmap string _]; [d.get(k, v)] is
      [default v (d !! k)], and [d[k]] raises [KeyError] on a missing key.
    - The compiled LangGraph agent ([self.graph], with its checkpointer) is
      an external collaborator: its two methods are parameters of the
      section [Agent], and its mutable checkpoint store is passed
      explicitly. *)

From Stdlib Require Import Ascii FloatClass PrimFloat DecimalString ZArith.
From Stdlib Require String.
From stdpp Require Import base option list strings gmap.

Set Warnings "-inexact-float".

(** ** Python strings *)

Module Str.

(** [p] is the start of [s]: [s.startswith(p)]. *)
Fixpoint startswith (p s : string) : bool :=
  match p, s with
  | EmptyString, _ => true
  | String _ _, EmptyString => false
  | String a p', String b s' => bool_decide (a = b) && startswith p' s'
  end.

(** [k in s] on strings: [k] occurs in [s] at some position. *)
Fixpoint contains (k s : string) : bool :=
  startswith k s ||
  match s with
  | EmptyString => false
  | String _ s' => contains k s'
  end.

(** [c.lower()] for one ASCII character: the capital letters 'A'..'Z'
    (65..90) go to 'a'..'z', every other byte stays. *)
Definition lower_ascii (c : ascii) : ascii :=
  let n := nat_of_ascii c in
  if bool_decide (65 ≤ n ≤ 90) then ascii_of_nat (n + 32) else c.

(** [s.lower()] on ASCII text. *)
Fixpoint ascii_lower (s : string) : string :=
  match s with
  | EmptyString => EmptyString
  | String c s' => String (lower_ascii c) (ascii_lower s')
  end.

(** Truth value of a string: the empty string is false. *)
Definition truthy (s : string) : bool :=
  match s with EmptyString => false | String _ _ => true end.

End Str.

(** ** Messages (langchain_core.messages) *)

(** One entry of [AIMessage.tool_calls]: a dict read by the agent only
    through [.get("name", "tool")], so the key "name" may be missing. *)
Record tool_call := ToolCall {
  tc_name : option string;
  tc_args : gmap string string;
  tc_id : option string
}.

(** A block of a list-valued message content: a string or a dict. *)
Inductive content_block :=
  | TextBlock (s : string)
  | DictBlock (d : gmap string string).

(** [BaseMessage.content : str | list[str | dict]]. *)
Inductive msg_content :=
  | StrContent (s : string)
  | ListContent (blocks : list content_block).

Inductive message :=
  | HumanMessage (c : msg_content)
  | SystemMessage (c : msg_content)
  | AIMessage (c : msg_content) (tool_calls : list tool_call)
  | ToolMessage (c : msg_content) (tool_call_id : string).

(** Truth value of a message content, as [if message.content] reads it. *)
Definition content_truthy (c : msg_content) : bool :=
  match c with
  | StrContent s => Str.truthy s
  | ListContent [] => false
  | ListContent (_ :: _) => true
  end.

(** The values of a graph state: a dict whose channel "messages" holds the
    history.  The same shape is yielded by [graph.stream(..., "values")]
    and read from [graph.get_state(config).values]. *)
Abbreviation state_values := (gmap string (list message)).

(** ** Progress events *)

(** The dict that [stream] yields. *)
Record event := Event {
  is_task_complete : bool;
  require_user_input : bool;
  content : string
}.

Global Instance event_eq_dec : EqDecision event.
Proof. solve_decision. Defined.

(** The phrases that make the classifier ask for more input. *)
Definition keywords : list string :=
  ["need more"; "please provide"; "please specify"; "which"; "clarify"].

Definition fallback_content : string :=
  "We are unable to process your request at the moment. Please try again.".

Definition fallback : event := Event false true fallback_content.

(** ** The tool functions *)

Section Tools.

(** [repr] of a finite float: the shortest decimal numeral that reads back
    as the same binary64 number.  The digits are produced by the Python
    runtime and are a parameter here. *)
Variable repr_finite : float → string.

(** [str(x)] for a float [x]. *)
Definition str_float (x : float) : string :=
  match classify x with
  | NaN => "nan"
  | PInf => "inf"
  | NInf => "-inf"
  | _ => repr_finite x
  end.

Definition calculator (operation : string) (a b : float) : string :=
  if bool_decide (operation = "add") then str_float (a + b)
  else if bool_decide (operation = "subtract") then str_float (a - b)
  else if bool_decide (operation = "multiply") then str_float (a * b)
  else if bool_decide (operation = "divide") then
    if (b =? 0)%float then "Error: Division by zero"
    else str_float (a / b)
  else "Error: Unknown operation".

End Tools.

(** [get_greeting(name="friend")]: [None] is the call without argument. *)
Definition get_greeting (name : option string) : string :=
  let name := default "friend" name in
  "Hello " +:+ name +:+ "! Nice to meet you! 👋".

(** ** The agent *)

(** The exceptions of the embedded subscripts: [d[k]] on a missing key and
    [l[-1]] on an empty list. *)
Inductive exn := KeyError | IndexError.

(** [item["messages"][-1]]. *)
Definition last_message (item : state_values) : exn + message :=
  match item !! "messages" with
  | None => inl KeyError
  | Some messages =>
      match last messages with
      | None => inl IndexError
      | Some m => inr m
      end
  end.

(** [tool_call.get("name", "tool")]. *)
Definition tool_name (tc : tool_call) : string := default "tool" (tc_name tc).

(** The body of the [for] loop of [stream]: what one step of the trace, seen
    through its latest message, makes the generator yield. *)
Definition progress_event (m : message) : option event :=
  match m with
  | AIMessage _ (tc :: _) =>
      (* Agent is calling a tool *)
      if bool_decide (tool_name tc = "calculator") then
        Some (Event false false "Performing calculation...")
      else if bool_decide (tool_name tc = "get_greeting") then
        Some (Event false false "Preparing greeting...")
      else None
  | ToolMessage _ _ => Some (Event false false "Processing result...")
  | _ => None
  end.

(** The [for] loop of [stream] over the items the graph produces: the events
    yielded, and the exception that ended the loop early, if any. *)
Fixpoint stream_loop (items : list state_values) : list event * option exn :=
  match items with
  | [] => ([], None)
  | item :: rest =>
      match last_message item with
      | inl e => ([], Some e)
      | inr m =>
          let '(events, r) := stream_loop rest in
          (option_list (progress_event m) ++ events, r)
      end
  end.

Section Agent.

(** The checkpoint store behind [self.graph] ([memory = MemorySaver()]). *)
Context {Store : Type}.

(** [str.lower], Python's lowercasing of Unicode text.  It is a parameter,
    so that the properties hold for it whatever it does beyond ASCII; on
    ASCII text it is [Str.ascii_lower], which the sample runs use. *)
Variable lower : string → string.

(** [self.graph.stream(inputs, config, stream_mode="values")] for the query
    and the thread id: the state values after each step, and the store the
    run leaves behind.  The trace is finite; a failure of the model backend
    inside the graph is outside the embedding. *)
Variable graph_stream : Store → string → string → list state_values * Store.

(** [self.graph.get_state(config).values] for the thread id of [config]. *)
Variable graph_get_state : Store → string → state_values.

(** The history the classifier reads: [values.get("messages", [])]. *)
Definition session_messages (store : Store) (context_id : string) : list message :=
  default [] (graph_get_state store context_id !! "messages").

Definition get_agent_response (store : Store) (context_id : string) : event :=
  let messages := session_messages store context_id in
  (* [if messages:] and [messages[-1]] *)
  match last messages with
  | Some (AIMessage c _) =>
      if content_truthy c then
        match c with
        | StrContent content =>
            let content_lower := lower content in
            (* Check if the message indicates more input is needed *)
            if existsb (λ keyword, Str.contains keyword content_lower) keywords
            then Event false true content
            else Event true false content
        | ListContent _ => fallback
        end
      else fallback
  | _ => fallback
  end.

(** What a run of the generator [stream] leaves: the events it yielded, in
    order, and either its normal end (with the store after the run) or the
    exception that ended it. *)
Inductive outcome :=
  | Returned (events : list event) (store' : Store)
  | Raised (events : list event) (e : exn).

Definition stream (store : Store) (query context_id : string) : outcome :=
  let '(items, store') := graph_stream store query context_id in
  match stream_loop items with
  | (events, Some e) => Raised events e
  | (events, None) =>
      Returned (events ++ [get_agent_response store' context_id]) store'
  end.

End Agent.

(** ** A concrete graph for running the definitions *)

(** The in-memory checkpointer: thread id to state values. *)
Abbreviation MemorySaver := (gmap string state_values).

Definition memory_get_state (store : MemorySaver) (thread_id : string) : state_values :=
  default ∅ (store !! thread_id).

(** A graph that replays a recorded trace: the query is appended to the
    history of the thread, each recorded message is one step, and the last
    state is checkpointed. *)
Fixpoint replay_from (history : list message) (script : list message) : list state_values :=
  match script with
  | [] => []
  | m :: script' =>
      {[ "messages" := history ++ [m] ]} :: replay_from (history ++ [m]) script'
  end.

Definition replay_stream (script : list message)
    (store : MemorySaver) (query thread_id : string) : list state_values * MemorySaver :=
  let history :=
    default [] (memory_get_state store thread_id !! "messages")
    ++ [HumanMessage (StrContent query)] in
  let items := {[ "messages" := history ]} :: replay_from history script in
  (items, <[thread_id := default ∅ (last items)]> store).

(** ** The status of the response format *)

(** [ResponseFormat.status]: the three statuses the module declares. *)
Inductive status := input_required | completed | error.

(** A derivation of the status from the flags of a record, for running the
    properties that are stated for every derivation. *)
Definition flags_status (e : event) : status :=
  match is_task_complete e, require_user_input e with
  | true, false => completed
  | false, true => input_required
  | _, _ => error
  end.

(** ** Sample sessions and traces *)

(** A store with one session, "ctx", holding the given history. *)
Definition session (ms : list message) : MemorySaver :=
  {[ "ctx" := {[ "messages" := ms ]} ]}.

Definition asks_back : list message :=
  [HumanMessage (StrContent "Add two numbers");
   AIMessage (StrContent "Which numbers should I add?") []].

Definition empty_answer : list message :=
  [HumanMessage (StrContent "hi"); AIMessage (StrContent "") []].

Definition block_answer : list message :=
  [HumanMessage (StrContent "hi");
   AIMessage (ListContent [TextBlock "Hello there"]) []].

(** The trace of "What is 25 plus 17?": a calculator call, its result, the
    answer. *)
Definition sum_script : list message :=
  [AIMessage (StrContent "") [ToolCall (Some "calculator") ∅ (Some "call_1")];
   ToolMessage (StrContent "42.0") "call_1";
   AIMessage (StrContent "25 plus 17 is 42.") []].

(** ** Predicates of the statements *)

(** [k] occurs in [s]: the meaning of Python's [k in s]. *)
Definition occurs_in (k s : string) : Prop := ∃ a b, s = a +:+ k +:+ b.

(** A final agent message with a usable text: an [AIMessage] whose content
    is a non-empty string. *)
Definition agent_text (m : message) : Prop :=
  ∃ content tcs, m = AIMessage (StrContent content) tcs ∧ content ≠ ""%string.

(** An event that carries no completion meaning: both flags false. *)
Definition intermediate (e : event) : Prop :=
  is_task_complete e = false ∧ require_user_input e = false.

(** A step of a trace that [stream] can read: the state values have a
    history, and the history has a latest message. *)
Definition readable (item : state_values) : Prop :=
  ∃ m, last_message item = inr m.

(** A character of a decimal numeral as [repr] writes a finite float:
    digits, sign, point and exponent mark. *)
Definition decimal_char (c : ascii) : bool :=
  bool_decide (c ∈ ["0"; "1"; "2"; "3"; "4"; "5"; "6"; "7"; "8"; "9";
                    "."; "e"; "+"; "-"]%char).

Fixpoint all_decimal_chars (s : string) : bool :=
  match s with
  | EmptyString => true
  | String c s' => decimal_char c && all_decimal_chars s'
  end.

(** What the text of a decimal number at least is: a non-empty string of
    such characters. *)
Definition decimal_numeral (s : string) : bool :=
  Str.truthy s && all_decimal_chars s.

(** ** What the streamer reads of a step *)

(** The events of a run, whichever way it ended. *)
Definition events_of {Store : Type} (o : @outcome Store) : list event :=
  match o with
  | Returned events _ => events
  | Raised events _ => events
  end.

(** Two latest messages that [stream] cannot tell apart: agent messages
    with tool calls whose first calls go by the same name, two tool
    results, or two messages of the remaining kinds (a human or system
    message, an agent message without tool calls). *)
Definition same_signal (m1 m2 : message) : Prop :=
  match m1, m2 with
  | AIMessage _ (tc1 :: _), AIMessage _ (tc2 :: _) => tool_name tc1 = tool_name tc2
  | AIMessage _ (_ :: _), _ | _, AIMessage _ (_ :: _) => False
  | ToolMessage _ _, ToolMessage _ _ => True
  | ToolMessage _ _, _ | _, ToolMessage _ _ => False
  | _, _ => True
  end.

(** The three texts of the progress events. *)
Definition progress_texts : list string :=
  ["Performing calculation..."; "Preparing greeting..."; "Processing result..."].

(** ** Startup (src/app/__main__.py) *)

Definition SUPPORTED_CONTENT_TYPES : list string := ["text"; "text/plain"].

Record AgentCapabilities := {
  streaming : bool;
  push_notifications : bool
}.

Record AgentSkill := {
  skill_id : string;
  skill_name : string;
  skill_description : string;
  skill_tags : list string;
  skill_examples : list string
}.

Record AgentCard := {
  card_name : string;
  card_description : string;
  card_url : string;
  card_version : string;
  default_input_modes : list string;
  default_output_modes : list string;
  capabilities : AgentCapabilities;
  skills : list AgentSkill
}.

Definition calculator_skill : AgentSkill := {|
  skill_id := "calculator";
  skill_name := "Calculator";
  skill_description :=
    "Performs basic arithmetic operations: add, subtract, multiply, and divide";
  skill_tags := ["calculator"; "math"; "arithmetic"];
  skill_examples :=
    ["What is 25 plus 17?"; "Calculate 8 times 9"; "Divide 144 by 12";
     "Add 10 and 5, then multiply the result by 3"]
|}.

Definition greeting_skill : AgentSkill := {|
  skill_id := "greeting";
  skill_name := "Greeting Generator";
  skill_description := "Generates friendly personalized greetings";
  skill_tags := ["greeting"; "hello"; "introduction"];
  skill_examples := ["Hi, my name is Alice!"; "Say hello to Bob"; "Greet John"]
|}.

(** [str(port)] for the integer option [--port]. *)
Definition str_int (n : Z) : string := NilZero.string_of_int (Z.to_int n).

Definition agent_card (host : string) (port : Z) : AgentCard := {|
  card_name := "Calculator & Greeting Agent";
  card_description :=
    "A helpful assistant that can greet people and perform basic arithmetic calculations";
  card_url := "http://" +:+ host +:+ ":" +:+ str_int port +:+ "/";
  card_version := "1.0.0";
  default_input_modes := SUPPORTED_CONTENT_TYPES;
  default_output_modes := SUPPORTED_CONTENT_TYPES;
  capabilities := {| streaming := true; push_notifications := true |};
  skills := [calculator_skill; greeting_skill]
|}.

(** A record of the module's logger. *)
Inductive log_level := INFO | ERROR.

(** How [main] ends: it returns, or [sys.exit(code)] raises. *)
Inductive ending := Returns | SystemExit (code : Z).

Definition missing_key_message : string :=
  "OPENAI_API_KEY environment variable not set.".

Section Main.

(** The server behind the card. *)
Context {Server : Type}.

(** The A2A components that [main] sets up after the card (HTTP client,
    push sender, request handler with the agent executor, application): the
    server, or the text of the exception that one of the constructors
    raised. *)
Variable build_server : AgentCard → string + Server.

(** [uvicorn.run(server.build(), host=host, port=port)]: it returns when the
    server stops, or raises an exception with the given text. *)
Variable uvicorn_run : Server → string → Z → option string.

(** [main(host, port)] under the environment [environ]: the records logged,
    and how the command ends. *)
Definition main (environ : gmap string string) (host : string) (port : Z)
  : list (log_level * string) * ending :=
  if negb (Str.truthy (default "" (environ !! "OPENAI_API_KEY"))) then
    (* raise MissingAPIKeyError, caught by the first handler *)
    ([(ERROR, "Error: " +:+ missing_key_message)], SystemExit 1)
  else
    match build_server (agent_card host port) with
    | inl e =>
        ([(ERROR, "An error occurred during server startup: " +:+ e)],
         SystemExit 1)
    | inr server =>
        let starting :=
          [(INFO, "Starting Calculator & Greeting Agent on "
                    +:+ host +:+ ":" +:+ str_int port);
           (INFO, "Agent Card available at: http://"
                    +:+ host +:+ ":" +:+ str_int port
                    +:+ "/.well-known/agent.json")] in
        match uvicorn_run server host port with
        | None => (starting, Returns)
        | Some e =>
            (starting ++
               [(ERROR, "An error occurred during server startup: " +:+ e)],
             SystemExit 1)
        end
    end.

End Main.

(** A name written in some letter case: its ASCII lowering is a phrase of
    the classifier. *)
Definition phrase_variant (k : string) : Prop := Str.ascii_lower k ∈ keywords.

(** A result of the calculator that reports an error. *)
Definition is_error (s : string) : bool := Str.startswith "Error" s.

(** A graph that yields a fixed trace and leaves the store as it is. *)
Definition fixed_graph (items : list state_values)
    (store : MemorySaver) (query thread_id : string) : list state_values * MemorySaver :=
  (items, store).

(** A trace whose third step has lost its history. *)
Definition broken_trace : list state_values :=
  [ {[ "messages" := [HumanMessage (StrContent "hi")] ]};
    {[ "messages" :=
         [HumanMessage (StrContent "hi");
          AIMessage (StrContent "") [ToolCall (Some "calculator") ∅ None]] ]};
    {[ "messages" := [] ]};
    {[ "messages" := [ToolMessage (StrContent "42.0") "call_1"] ]} ].

(** The steps of [sum_script], seen with another history, another text and
    a batch of two calls. *)
Definition batch_trace : list state_values :=
  [ {[ "messages" :=
         [AIMessage (StrContent "Let me compute.")
            [ToolCall (Some "calculator") ∅ None;
             ToolCall (Some "get_greeting") ∅ None]] ]};
    {[ "messages" := [ToolMessage (StrContent "Hello!") "call_2"] ]};
    {[ "messages" := [HumanMessage (StrContent "thanks")] ]} ].

(** * Properties *)

(** ** Substring search *)

Lemma startswith_app p b : Str.startswith p (p +:+ b) = true.
Proof.
  induction p as [|c p IH]; simpl; [done|].
  rewrite bool_decide_eq_true_2 by done. exact IH.
Qed.

Lemma startswith_inv p s : Str.startswith p s = true → ∃ b, s = p +:+ b.
Proof.
  revert s. induction p as [|c p IH]; intros s H.
  - by exists s.
  - destruct s as [|d s]; simpl in H; [done|].
    apply andb_true_iff in H as [Hc Hp]. apply bool_decide_eq_true in Hc as ->.
    destruct (IH _ Hp) as [b ->]. by exists b.
Qed.

Lemma contains_here k s : Str.startswith k s = true → Str.contains k s = true.
Proof. intros H. destruct s; simpl in *; rewrite H; done. Qed.

Lemma contains_skip k a s :
  Str.contains k s = true → Str.contains k (a +:+ s) = true.
Proof.
  intros H. induction a as [|c a IH]; simpl; [done|].
  rewrite IH. apply orb_true_r.
Qed.

(** [Str.contains] decides [occurs_in]. *)
Lemma contains_spec k s : Str.contains k s = true ↔ occurs_in k s.
Proof.
  split.
  - induction s as [|c s IH]; simpl; intros H.
    + rewrite orb_false_r in H. destruct (startswith_inv _ _ H) as [b ->].
      by exists ""%string, b.
    + apply orb_true_iff in H as [H|H].
      * destruct (startswith_inv _ _ H) as [b ->]. by exists ""%string, b.
      * destruct (IH H) as (a & b & ->). by exists (String c a), b.
  - intros (a & b & ->). apply contains_skip, contains_here, startswith_app.
Qed.

(** The scan [any(keyword in content_lower for keyword in [...])]. *)
Lemma scan_true s :
  existsb (λ k, Str.contains k s) keywords = true ↔
  ∃ k, k ∈ keywords ∧ occurs_in k s.
Proof.
  rewrite existsb_exists. split.
  - intros (k & Hin & Hk). exists k. by rewrite list_elem_of_In, <-contains_spec.
  - intros (k & Hin & Hk). exists k. by rewrite <-list_elem_of_In, contains_spec.
Qed.

Lemma scan_false s :
  existsb (λ k, Str.contains k s) keywords = false ↔
  ∀ k, k ∈ keywords → ¬ occurs_in k s.
Proof.
  rewrite <-not_true_iff_false, scan_true. split.
  - intros H k Hin Hk. apply H. eauto.
  - intros H (k & Hin & Hk). exact (H k Hin Hk).
Qed.

(** ** The completion classifier *)

Section Classifier.

Context {Store : Type}.
Variable lower : string → string.
Variable graph_get_state : Store → string → state_values.

(** The record the classifier returns for a final agent message whose
    content is a non-empty string. *)
Lemma classify_text store cid content tcs :
  last (session_messages graph_get_state store cid)
    = Some (AIMessage (StrContent content) tcs) →
  content ≠ ""%string →
  get_agent_response lower graph_get_state store cid =
    if existsb (λ k, Str.contains k (lower content)) keywords
    then Event false true content else Event true false content.
Proof.
  intros Hlast Hne. unfold get_agent_response. rewrite Hlast. simpl.
  destruct content; [done|]. reflexivity.
Qed.

Lemma classify_text_cases store cid content tcs :
  last (session_messages graph_get_state store cid)
    = Some (AIMessage (StrContent content) tcs) →
  content ≠ ""%string →
  get_agent_response lower graph_get_state store cid = Event true false content ∨
  get_agent_response lower graph_get_state store cid = Event false true content.
Proof.
  intros Hlast Hne. rewrite (classify_text _ _ _ _ Hlast Hne).
  destruct (existsb _ _); auto.
Qed.

(** Every other session gets the fallback. *)
Lemma classify_not_text store cid :
  (∀ m, last (session_messages graph_get_state store cid) = Some m →
        ¬ agent_text m) →
  get_agent_response lower graph_get_state store cid = fallback.
Proof.
  intros H. unfold get_agent_response.
  destruct (last (session_messages graph_get_state store cid)) as [m|] eqn:Hlast;
    [|done].
  specialize (H m eq_refl).
  destruct m as [c|c|c tcs|c id]; try done.
  destruct c as [s|[|b bs]]; simpl; try done.
  destruct s; simpl; [done|].
  exfalso. apply H. eexists _, _. split; [reflexivity|done].
Qed.

(** Whether a message is an agent text can be decided. *)
Lemma agent_text_dec m : agent_text m ∨ ¬ agent_text m.
Proof.
  destruct m as [c|c|[s|bs] tcs|c id];
    try (right; intros (? & ? & ? & ?); discriminate).
  destruct s as [|a s].
  - right. intros (? & ? & [= <- _] & ?). done.
  - left. eexists _, _. split; [reflexivity|done].
Qed.

(** The case analysis that the properties below share: the final message
    is an agent text, classified one way or the other, or the record is the
    fallback. *)
Lemma classify_cases store cid :
  (∃ content tcs,
     last (session_messages graph_get_state store cid)
       = Some (AIMessage (StrContent content) tcs) ∧
     get_agent_response lower graph_get_state store cid
       = Event true false content) ∨
  (∃ content tcs,
     last (session_messages graph_get_state store cid)
       = Some (AIMessage (StrContent content) tcs) ∧
     get_agent_response lower graph_get_state store cid
       = Event false true content) ∨
  get_agent_response lower graph_get_state store cid = fallback.
Proof.
  destruct (last (session_messages graph_get_state store cid)) as [m|] eqn:Hlast.
  - destruct (agent_text_dec m) as [(content & tcs & -> & Hne)|Hno].
    + destruct (classify_text_cases _ _ _ _ Hlast Hne) as [H|H];
        [left|right; left]; eauto.
    + right; right. apply classify_not_text. congruence.
  - right; right. apply classify_not_text. congruence.
Qed.

(** The two flags of a record of the classifier differ. *)
Lemma classify_flags_differ store cid :
  require_user_input (get_agent_response lower graph_get_state store cid)
    = negb (is_task_complete (get_agent_response lower graph_get_state store cid)).
Proof.
  destruct (classify_cases store cid)
    as [(c & _ & _ & ->)|[(c & _ & _ & ->)| ->]]; reflexivity.
Qed.

(** C1 (amended): for every session whose final message is an agent
    message whose content is a non-empty string: if the lowercased content
    contains one of the five phrases the classifier returns
    [{is_task_complete: false, require_user_input: true, content}], and if
    it contains none of them it returns
    [{is_task_complete: true, require_user_input: false, content}]. *)
Theorem classify_final_text store cid content tcs :
  last (session_messages graph_get_state store cid)
    = Some (AIMessage (StrContent content) tcs) →
  content ≠ ""%string →
  ((∃ k, k ∈ keywords ∧ occurs_in k (lower content)) →
     get_agent_response lower graph_get_state store cid
       = Event false true content) ∧
  ((∀ k, k ∈ keywords → ¬ occurs_in k (lower content)) →
     get_agent_response lower graph_get_state store cid
       = Event true false content).
Proof.
  intros Hlast Hne. rewrite (classify_text _ _ _ _ Hlast Hne). split.
  - intros H. apply scan_true in H. by rewrite H.
  - intros H. apply scan_false in H. by rewrite H.
Qed.

(** C4: for every session whose message list is empty, or whose last
    message is not an agent message with a non-empty string content, the
    classifier returns the fallback record, with its literal text. *)
Theorem classify_fallback store cid :
  session_messages graph_get_state store cid = [] ∨
  (∃ m, last (session_messages graph_get_state store cid) = Some m ∧
        ¬ agent_text m) →
  get_agent_response lower graph_get_state store cid =
    Event false true
      "We are unable to process your request at the moment. Please try again.".
Proof.
  intros H. apply classify_not_text. intros m Hm.
  destruct H as [H|(m' & Hm' & Hno)].
  - rewrite H in Hm. done.
  - congruence.
Qed.

(** C5: the record of the classifier never has both flags true, and has
    exactly one of them true, whatever the state of the session. *)
Theorem classify_one_flag store cid :
  is_task_complete (get_agent_response lower graph_get_state store cid)
    && require_user_input (get_agent_response lower graph_get_state store cid)
    = false ∧
  xorb (is_task_complete (get_agent_response lower graph_get_state store cid))
       (require_user_input (get_agent_response lower graph_get_state store cid))
    = true.
Proof.
  rewrite classify_flags_differ.
  destruct (is_task_complete _); done.
Qed.

Section Status.

(** The status that a terminal record stands for.  The agent module never
    builds a [ResponseFormat]; the derivation belongs to the caller of
    [stream] (the executor, which is not part of the sources), so it is a
    parameter, constrained only on the two records that the classifier's own
    comments name: "Task completed successfully" and "the message indicates
    more input is needed". *)
Variable task_status : event → status.
Hypothesis status_completed :
  ∀ c, task_status (Event true false c) = completed.
Hypothesis status_input_required :
  ∀ c, task_status (Event false true c) = input_required.

(** C9: the classifier returns a record of one of three shapes, the
    completed record with the answer, the input-required record with the
    answer, or the fixed fallback; none of them stands for the status
    [error]. *)
Theorem classify_three_shapes store cid :
  ((∃ content tcs,
      last (session_messages graph_get_state store cid)
        = Some (AIMessage (StrContent content) tcs) ∧
      get_agent_response lower graph_get_state store cid
        = Event true false content) ∨
   (∃ content tcs,
      last (session_messages graph_get_state store cid)
        = Some (AIMessage (StrContent content) tcs) ∧
      get_agent_response lower graph_get_state store cid
        = Event false true content) ∨
   get_agent_response lower graph_get_state store cid = fallback) ∧
  task_status (get_agent_response lower graph_get_state store cid) ≠ error.
Proof.
  split; [apply classify_cases|].
  destruct (classify_cases store cid)
    as [(c & _ & _ & ->)|[(c & _ & _ & ->)| ->]].
  - by rewrite status_completed.
  - by rewrite status_input_required.
  - unfold fallback. by rewrite status_input_required.
Qed.

End Status.

End Classifier.

(** *** The classifier on sample sessions *)

Example classify_uppercase :
  get_agent_response Str.ascii_lower memory_get_state
    (session [AIMessage (StrContent "PLEASE PROVIDE both numbers.") []]) "ctx"
  = Event false true "PLEASE PROVIDE both numbers.".
Proof. reflexivity. Qed.

Example classify_unknown_session :
  get_agent_response Str.ascii_lower memory_get_state ∅ "ctx" = fallback.
Proof. reflexivity. Qed.

(** C1, as stated, fails on an agent message whose content is the empty
    string: it is a string that contains none of the phrases, and the
    classifier returns the fallback, not the completed record. *)
Lemma classify_empty_text_counterexample :
  last (session_messages memory_get_state (session empty_answer) "ctx")
    = Some (AIMessage (StrContent "") []) ∧
  (∀ k, k ∈ keywords → ¬ occurs_in k (Str.ascii_lower "")) ∧
  get_agent_response Str.ascii_lower memory_get_state (session empty_answer) "ctx"
    = fallback ∧
  get_agent_response Str.ascii_lower memory_get_state (session empty_answer) "ctx"
    ≠ Event true false "".
Proof.
  split; [reflexivity|]. split; [|split; [reflexivity|done]].
  apply scan_false. reflexivity.
Qed.

Lemma classify_final_text_witness :
  get_agent_response Str.ascii_lower memory_get_state (session asks_back) "ctx"
    = Event false true "Which numbers should I add?".
Proof.
  refine (proj1 (classify_final_text Str.ascii_lower memory_get_state
            (session asks_back) "ctx" "Which numbers should I add?" [] _ _) _).
  - reflexivity.
  - discriminate.
  - apply scan_true. reflexivity.
Defined.

Lemma classify_fallback_witness :
  get_agent_response Str.ascii_lower memory_get_state (session block_answer) "ctx"
    = Event false true
        "We are unable to process your request at the moment. Please try again.".
Proof.
  apply (classify_fallback Str.ascii_lower memory_get_state
           (session block_answer) "ctx").
  right. eexists. split; [reflexivity|].
  intros (content & tcs & Hm & _). discriminate Hm.
Defined.

Lemma classify_three_shapes_witness :
  flags_status
    (get_agent_response Str.ascii_lower memory_get_state (session asks_back) "ctx")
  ≠ error.
Proof.
  refine (proj2 (classify_three_shapes Str.ascii_lower memory_get_state
            flags_status _ _ (session asks_back) "ctx")); reflexivity.
Defined.

(** ** The progress streamer *)

Lemma progress_event_intermediate m e :
  progress_event m = Some e → intermediate e.
Proof.
  destruct m as [c|c|c [|tc rest]|c id]; simpl; try done.
  - repeat case_bool_decide; intros [= <-]; done.
  - intros [= <-]. done.
Qed.

(** Over a trace of readable steps the loop yields, in the order of the
    steps, the event of each step that has one. *)
Lemma stream_loop_steps items ms :
  Forall2 (λ item m, last_message item = inr m) items ms →
  stream_loop items = (omap progress_event ms, None).
Proof.
  induction 1 as [|item m items ms Hm _ IH]; simpl; [done|].
  rewrite Hm, IH. destruct (progress_event m); done.
Qed.

Lemma stream_loop_intermediate items :
  Forall intermediate (stream_loop items).1.
Proof.
  induction items as [|item items IH]; simpl; [constructor|].
  destruct (last_message item) as [e|m]; simpl; [constructor|].
  destruct (stream_loop items) as [events r]; simpl in *.
  destruct (progress_event m) as [e|] eqn:He; simpl; [|done].
  constructor; [|done]. by eapply progress_event_intermediate.
Qed.

Lemma stream_loop_no_raise items :
  Forall readable items → (stream_loop items).2 = None.
Proof.
  induction 1 as [|item items [m Hm] _ IH]; simpl; [done|].
  rewrite Hm. destruct (stream_loop items); done.
Qed.

(** The loop stops at the first step it cannot read, and reports it. *)
Lemma stream_loop_raise items item rest e :
  Forall readable items →
  last_message item = inl e →
  (stream_loop (items ++ item :: rest)).2 = Some e.
Proof.
  intros Hitems He. induction Hitems as [|it items [m Hm] _ IH]; simpl.
  - by rewrite He.
  - rewrite Hm. destruct (stream_loop (items ++ item :: rest)); done.
Qed.

(** The event of a step is decided by the first tool call of its message
    alone: the other calls of the batch are not read. *)
Lemma progress_event_first_call c tc rest :
  progress_event (AIMessage c (tc :: rest)) = progress_event (AIMessage c [tc]).
Proof. reflexivity. Qed.

(** C6: a step whose message is an agent message whose first tool call is
    named "calculator" yields the event "Performing calculation...", one
    whose first tool call is named "get_greeting" yields "Preparing
    greeting...", and a step whose message is a tool result yields
    "Processing result..."; each with both flags false, as every event of a
    step has them.  The loop yields these events step by step, in the order
    of the trace. *)
Theorem progress_events c args id rest tool_call_id m e items ms :
  progress_event (AIMessage c (ToolCall (Some "calculator") args id :: rest))
    = Some (Event false false "Performing calculation...") ∧
  progress_event (AIMessage c (ToolCall (Some "get_greeting") args id :: rest))
    = Some (Event false false "Preparing greeting...") ∧
  progress_event (ToolMessage c tool_call_id)
    = Some (Event false false "Processing result...") ∧
  (progress_event m = Some e →
     is_task_complete e = false ∧ require_user_input e = false) ∧
  (Forall2 (λ item m, last_message item = inr m) items ms →
     (stream_loop items).1 = omap progress_event ms).
Proof.
  split; [reflexivity|]. split; [reflexivity|]. split; [reflexivity|].
  split; [apply progress_event_intermediate|].
  intros H. by rewrite (stream_loop_steps _ _ H).
Qed.

Lemma progress_events_witness :
  is_task_complete (Event false false "Processing result...") = false ∧
  require_user_input (Event false false "Processing result...") = false.
Proof.
  refine (proj1 (proj2 (proj2 (proj2
    (progress_events (StrContent "42.0") ∅ None [] "call_1"
       (ToolMessage (StrContent "42.0") "call_1")
       (Event false false "Processing result...") [] [])))) _).
  reflexivity.
Defined.

(** C10: a step whose message is an agent message with tool calls, the
    first of which is named neither "calculator" nor "get_greeting", yields
    no event: the trace goes on as if the step were not there. *)
Theorem progress_event_other_tool c tc rest :
  tool_name tc ≠ "calculator" →
  tool_name tc ≠ "get_greeting" →
  progress_event (AIMessage c (tc :: rest)) = None ∧
  ∀ item items,
    last_message item = inr (AIMessage c (tc :: rest)) →
    stream_loop (item :: items) = stream_loop items.
Proof.
  intros Hc Hg.
  assert (H : progress_event (AIMessage c (tc :: rest)) = None).
  { simpl. by rewrite !bool_decide_eq_false_2. }
  split; [exact H|]. intros item items Hm.
  cbn [stream_loop]. rewrite Hm, H. by destruct (stream_loop items).
Qed.

Lemma progress_event_other_tool_witness :
  progress_event
    (AIMessage (StrContent "") [ToolCall (Some "web_search") ∅ None;
                                 ToolCall (Some "calculator") ∅ None]) = None.
Proof.
  refine (proj1 (progress_event_other_tool (StrContent "")
            (ToolCall (Some "web_search") ∅ None)
            [ToolCall (Some "calculator") ∅ None] _ _)); discriminate.
Defined.

(** A tool call without a name reads as "tool", and yields nothing. *)
Example progress_event_unnamed_tool :
  progress_event (AIMessage (StrContent "") [ToolCall None ∅ None]) = None.
Proof. reflexivity. Qed.

Section Streamer.

Context {Store : Type}.
Variable lower : string → string.
Variable graph_stream : Store → string → string → list state_values * Store.
Variable graph_get_state : Store → string → state_values.

(** C7: over a finite trace of steps, each with its latest message, a run
    of [stream] ends normally; it yields finitely many events, the last of
    which is the record of the classifier for the state the run leaves, and
    every event before it has both flags false, so that the terminal record
    occurs once, at the end. *)
Theorem stream_terminal_last store query cid items store' :
  graph_stream store query cid = (items, store') →
  Forall readable items →
  ∃ steps,
    stream lower graph_stream graph_get_state store query cid =
      Returned
        (steps ++ [get_agent_response lower graph_get_state store' cid])
        store' ∧
    Forall intermediate steps ∧
    get_agent_response lower graph_get_state store' cid ∉ steps.
Proof.
  intros Hrun Hitems. exists (stream_loop items).1.
  pose proof (stream_loop_no_raise _ Hitems) as Hnone.
  pose proof (stream_loop_intermediate items) as Hinter.
  unfold stream. rewrite Hrun.
  destruct (stream_loop items) as [events r]; simpl in *. subst r.
  split; [done|]. split; [done|].
  intros Hin. rewrite Forall_forall in Hinter.
  destruct (Hinter _ Hin) as [Hc Hr].
  pose proof (classify_flags_differ lower graph_get_state store' cid) as Hx.
  rewrite Hc, Hr in Hx. done.
Qed.

(** A step that cannot be read ends the run with its exception: the
    classifier is not asked, and no terminal record is yielded. *)
Lemma stream_unreadable store query cid items item rest store' e :
  graph_stream store query cid = (items ++ item :: rest, store') →
  Forall readable items →
  last_message item = inl e →
  ∃ steps,
    stream lower graph_stream graph_get_state store query cid = Raised steps e ∧
    Forall intermediate steps.
Proof.
  intros Hrun Hitems He. exists (stream_loop (items ++ item :: rest)).1.
  pose proof (stream_loop_raise _ _ rest _ Hitems He) as Hraise.
  pose proof (stream_loop_intermediate (items ++ item :: rest)) as Hinter.
  unfold stream. rewrite Hrun.
  destruct (stream_loop (items ++ item :: rest)) as [events r]; simpl in *.
  by subst r.
Qed.

End Streamer.

Lemma stream_terminal_last_witness :
  ∃ steps,
    stream Str.ascii_lower (replay_stream sum_script) memory_get_state
      ∅ "What is 25 plus 17?" "ctx"
    = Returned
        (steps ++
          [get_agent_response Str.ascii_lower memory_get_state
             (replay_stream sum_script ∅ "What is 25 plus 17?" "ctx").2 "ctx"])
        (replay_stream sum_script ∅ "What is 25 plus 17?" "ctx").2 ∧
    Forall intermediate steps ∧
    get_agent_response Str.ascii_lower memory_get_state
      (replay_stream sum_script ∅ "What is 25 plus 17?" "ctx").2 "ctx" ∉ steps.
Proof.
  apply (stream_terminal_last Str.ascii_lower (replay_stream sum_script)
           memory_get_state ∅ "What is 25 plus 17?" "ctx"
           (replay_stream sum_script ∅ "What is 25 plus 17?" "ctx").1).
  - reflexivity.
  - repeat constructor; eexists; reflexivity.
Defined.

(** The scenario of the specification: one calculator event, one result
    event, and the completed record with the answer. *)
Example stream_sum :
  ∃ store',
    stream Str.ascii_lower (replay_stream sum_script) memory_get_state
      ∅ "What is 25 plus 17?" "ctx"
    = Returned [Event false false "Performing calculation...";
                Event false false "Processing result...";
                Event true false "25 plus 17 is 42."] store'.
Proof. eexists. reflexivity. Qed.

Example stream_raises :
  stream Str.ascii_lower (λ store _ _, ([{[ "messages" := [] ]}], store))
    memory_get_state (∅ : MemorySaver) "hi" "ctx"
  = Raised [] IndexError.
Proof. reflexivity. Qed.

(** ** The tool functions *)

(** C2 (amended): for add, subtract and multiply the calculator returns
    [str] of the binary64 result of the operation, which is the decimal
    text of that float when it is finite and "inf", "-inf" or "nan" when it
    is not; for divide it returns "Error: Division by zero" when [b == 0]
    and [str] of the binary64 quotient otherwise; for every other operation
    it returns "Error: Unknown operation".  The calculator is a total
    function to strings: no input makes it raise. *)
Theorem calculator_results repr_finite operation a b :
  calculator repr_finite "add" a b = str_float repr_finite (a + b) ∧
  calculator repr_finite "subtract" a b = str_float repr_finite (a - b) ∧
  calculator repr_finite "multiply" a b = str_float repr_finite (a * b) ∧
  calculator repr_finite "divide" a b =
    (if (b =? 0)%float then "Error: Division by zero"%string
     else str_float repr_finite (a / b)) ∧
  (operation ∉ ["add"; "subtract"; "multiply"; "divide"]%string →
     calculator repr_finite operation a b = "Error: Unknown operation"%string) ∧
  (∀ x, str_float repr_finite x = repr_finite x
        ∨ str_float repr_finite x ∈ ["inf"; "-inf"; "nan"]%string).
Proof.
  split; [reflexivity|]. split; [reflexivity|]. split; [reflexivity|].
  split; [reflexivity|]. split.
  - intros Hop. unfold calculator.
    rewrite !bool_decide_eq_false_2; [done|..]; intros ->; apply Hop; set_solver.
  - intros x. unfold str_float. destruct (classify x); set_solver.
Qed.

Lemma calculator_results_witness :
  calculator (λ _, "0.0"%string) "modulo" 7 2 = "Error: Unknown operation"%string.
Proof.
  refine (proj1 (proj2 (proj2 (proj2 (proj2
    (calculator_results (λ _, "0.0"%string) "modulo" 7 2))))) _).
  intros H. repeat (apply elem_of_cons in H as [H|H]; [discriminate H|]).
  by apply elem_of_nil in H.
Defined.

(** C2, as stated, fails when the product overflows: the calculator
    returns "inf", which is not the decimal text of the arithmetic
    result. *)
Lemma calculator_overflow_counterexample :
  (∀ repr_finite, calculator repr_finite "multiply" 1e308 10 = "inf"%string) ∧
  decimal_numeral "inf" = false.
Proof. split; reflexivity. Qed.

(** Binary64 addition rounds: the sum of 0.1 and 0.2 is not the float
    0.3. *)
Example calculator_add_rounds repr_finite :
  calculator repr_finite "add" 0.1 0.2 = repr_finite 0.30000000000000004%float ∧
  (0.30000000000000004 =? 0.3)%float = false.
Proof. split; reflexivity. Qed.

(** Negative zero is zero for [b == 0]. *)
Example calculator_divide_negative_zero repr_finite :
  calculator repr_finite "divide" 1 (-0) = "Error: Division by zero"%string.
Proof. reflexivity. Qed.

(** C8: the greeting for a name is "Hello ", the name and a closing
    phrase, so it contains the name and the greeting word; without an
    argument the name is "friend". *)
Theorem get_greeting_contains name :
  get_greeting (Some name) = "Hello " +:+ name +:+ "! Nice to meet you! 👋" ∧
  Str.contains name (get_greeting (Some name)) = true ∧
  Str.contains "Hello" (get_greeting (Some name)) = true ∧
  get_greeting None = get_greeting (Some "friend").
Proof.
  split; [reflexivity|]. split; [|split; [|reflexivity]].
  - apply contains_spec. by eexists _, _.
  - apply contains_spec.
    by exists ""%string, (" " +:+ name +:+ "! Nice to meet you! 👋").
Qed.

(** * Further properties of the code *)

(** ** Strings *)

Lemma append_cons x (a b : string) : String x a +:+ b = String x (a +:+ b).
Proof. reflexivity. Qed.

Lemma append_assoc (a b c : string) : (a +:+ b) +:+ c = a +:+ b +:+ c.
Proof.
  induction a as [|x a IH]; [done|]. rewrite !append_cons. by rewrite IH.
Qed.

Lemma append_length (a b : string) :
  String.length (a +:+ b) = String.length a + String.length b.
Proof.
  induction a as [|x a IH]; [done|]. rewrite append_cons. simpl. by rewrite IH.
Qed.

(** Cancelling a common end. *)
Lemma append_inj_r (a b s : string) : a +:+ s = b +:+ s → a = b.
Proof.
  revert b. induction a as [|x a IH]; intros [|y b] H.
  - done.
  - apply (f_equal String.length) in H. rewrite !append_length in H.
    simpl in H. lia.
  - apply (f_equal String.length) in H. rewrite !append_length in H.
    simpl in H. lia.
  - rewrite !append_cons in H. injection H as -> H. f_equal. by apply IH.
Qed.

Lemma ascii_lower_app a b :
  Str.ascii_lower (a +:+ b) = Str.ascii_lower a +:+ Str.ascii_lower b.
Proof.
  induction a as [|x a IH]; [done|]. rewrite append_cons. simpl.
  by rewrite IH.
Qed.

(** A split of the lowered text is the lowering of a split of the text. *)
Lemma ascii_lower_split s x y :
  Str.ascii_lower s = x +:+ y →
  ∃ s1 s2, s = s1 +:+ s2 ∧ Str.ascii_lower s1 = x ∧ Str.ascii_lower s2 = y.
Proof.
  revert s. induction x as [|c x IH]; intros s H.
  - by exists ""%string, s.
  - rewrite append_cons in H. destruct s as [|d s]; simpl in H; [done|].
    injection H as Hc Hs. destruct (IH _ Hs) as (s1 & s2 & -> & <- & <-).
    exists (String d s1), s2. simpl. by rewrite Hc.
Qed.

(** A phrase occurs in the lowered text exactly when one of its letter-case
    variants occurs in the text. *)
Lemma occurs_in_lowered k s :
  occurs_in k (Str.ascii_lower s) ↔
  ∃ a k' b, s = a +:+ k' +:+ b ∧ Str.ascii_lower k' = k.
Proof.
  split.
  - intros (x & y & H).
    destruct (ascii_lower_split _ _ _ H) as (a & r & -> & <- & Hr).
    destruct (ascii_lower_split _ _ _ Hr) as (k' & b & -> & <- & <-).
    by exists a, k', b.
  - intros (a & k' & b & -> & <-). rewrite !ascii_lower_app. by eexists _, _.
Qed.

(** ** The classifier: what decides the record *)

Section ClassifierInputs.

Context {Store : Type}.
Variable lower : string → string.
Variable graph_get_state : Store → string → state_values.

(** X1: the flags of the record depend on the final agent text through its
    lowered form only: two sessions, whatever their earlier history and the
    tool calls of their final messages, whose final texts lower to the same
    string get the same flags, and each record carries its own text as it
    was written. *)
Theorem classify_by_lowered_text store1 cid1 store2 cid2 content1 tcs1 content2 tcs2 :
  last (session_messages graph_get_state store1 cid1)
    = Some (AIMessage (StrContent content1) tcs1) →
  last (session_messages graph_get_state store2 cid2)
    = Some (AIMessage (StrContent content2) tcs2) →
  content1 ≠ ""%string →
  content2 ≠ ""%string →
  lower content1 = lower content2 →
  is_task_complete (get_agent_response lower graph_get_state store1 cid1)
    = is_task_complete (get_agent_response lower graph_get_state store2 cid2) ∧
  require_user_input (get_agent_response lower graph_get_state store1 cid1)
    = require_user_input (get_agent_response lower graph_get_state store2 cid2) ∧
  content (get_agent_response lower graph_get_state store1 cid1) = content1 ∧
  content (get_agent_response lower graph_get_state store2 cid2) = content2.
Proof.
  intros H1 H2 Hne1 Hne2 Hlow.
  rewrite (classify_text _ _ _ _ _ _ H1 Hne1), (classify_text _ _ _ _ _ _ H2 Hne2).
  rewrite Hlow. by destruct (existsb _ _).
Qed.

(** X2: with the lowering of ASCII text, a final agent text is classified
    as input-required exactly when some letter-case variant of one of the
    five phrases occurs in it, at any position, also inside a word. *)
Theorem classify_phrase_variant store cid content tcs :
  last (session_messages graph_get_state store cid)
    = Some (AIMessage (StrContent content) tcs) →
  content ≠ ""%string →
  get_agent_response Str.ascii_lower graph_get_state store cid
    = Event false true content
  ↔ ∃ a k b, content = a +:+ k +:+ b ∧ phrase_variant k.
Proof.
  intros Hlast Hne. rewrite (classify_text _ _ _ _ _ _ Hlast Hne).
  destruct (existsb _ _) eqn:Hscan.
  - apply scan_true in Hscan as (k & Hk & Hocc).
    apply occurs_in_lowered in Hocc as (a & k' & b & -> & <-).
    split; [|done]. intros _. by exists a, k', b.
  - split; [done|]. intros (a & k & b & -> & Hk). exfalso.
    rewrite scan_false in Hscan. apply (Hscan _ Hk).
    apply occurs_in_lowered. by exists a, k, b.
Qed.

End ClassifierInputs.

Lemma classify_by_lowered_text_witness :
  is_task_complete
    (get_agent_response Str.ascii_lower memory_get_state (session asks_back) "ctx")
  = is_task_complete
      (get_agent_response Str.ascii_lower memory_get_state
         (session [AIMessage (StrContent "WHICH NUMBERS SHOULD I ADD?")
                     [ToolCall (Some "calculator") ∅ None]]) "ctx").
Proof.
  refine (proj1 (classify_by_lowered_text Str.ascii_lower memory_get_state
    (session asks_back) "ctx"
    (session [AIMessage (StrContent "WHICH NUMBERS SHOULD I ADD?")
                [ToolCall (Some "calculator") ∅ None]]) "ctx"
    "Which numbers should I add?" [] "WHICH NUMBERS SHOULD I ADD?"
    [ToolCall (Some "calculator") ∅ None] _ _ _ _ _));
    first [reflexivity | discriminate].
Defined.

(** "Whichever" holds the phrase "which". *)
Lemma classify_phrase_variant_witness :
  get_agent_response Str.ascii_lower memory_get_state
    (session [AIMessage (StrContent "Whichever you like: 42.") []]) "ctx"
  = Event false true "Whichever you like: 42.".
Proof.
  refine (proj2 (classify_phrase_variant memory_get_state
    (session [AIMessage (StrContent "Whichever you like: 42.") []]) "ctx"
    "Whichever you like: 42." [] _ _) _).
  - reflexivity.
  - discriminate.
  - exists ""%string, "Which"%string, "ever you like: 42."%string.
    split; [reflexivity|]. unfold phrase_variant, keywords.
    change (Str.ascii_lower "Which") with "which"%string.
    do 3 apply list_elem_of_further. apply list_elem_of_here.
Defined.

(** ** The streamer: what it reads, what it yields, how it fails *)

Lemma progress_event_text m e :
  progress_event m = Some e → content e ∈ progress_texts.
Proof.
  unfold progress_texts.
  destruct m as [c|c|c [|tc rest]|c id]; simpl; try done.
  - repeat case_bool_decide; intros [= <-]; simpl.
    + apply list_elem_of_here.
    + apply list_elem_of_further, list_elem_of_here.
  - intros [= <-]. simpl. do 2 apply list_elem_of_further. apply list_elem_of_here.
Qed.

Lemma progress_event_same_signal m1 m2 :
  same_signal m1 m2 → progress_event m1 = progress_event m2.
Proof.
  destruct m1 as [c1|c1|c1 [|tc1 r1]|c1 id1], m2 as [c2|c2|c2 [|tc2 r2]|c2 id2];
    simpl; try done.
  by intros ->.
Qed.

Lemma stream_loop_length items :
  length (stream_loop items).1 ≤ length items.
Proof.
  induction items as [|item items IH]; simpl; [done|].
  destruct (last_message item) as [e|m]; simpl; [lia|].
  destruct (stream_loop items) as [events r]; simpl in *.
  destruct (progress_event m); simpl; lia.
Qed.

Lemma stream_loop_texts items :
  Forall (λ e, content e ∈ progress_texts) (stream_loop items).1.
Proof.
  induction items as [|item items IH]; simpl; [constructor|].
  destruct (last_message item) as [e|m]; simpl; [constructor|].
  destruct (stream_loop items) as [events r]; simpl in *.
  destruct (progress_event m) as [e|] eqn:He; simpl; [|done].
  constructor; [|done]. by eapply progress_event_text.
Qed.

(** The loop up to the first step that cannot be read. *)
Lemma stream_loop_stops items ms item rest e :
  Forall2 (λ item m, last_message item = inr m) items ms →
  last_message item = inl e →
  stream_loop (items ++ item :: rest) = (omap progress_event ms, Some e).
Proof.
  intros Hitems He. induction Hitems as [|it m items ms Hm _ IH]; simpl.
  - by rewrite He.
  - rewrite Hm, IH. by destruct (progress_event m).
Qed.

Section StreamerRuns.

Context {Store : Type}.
Variable lower : string → string.
Variable graph_stream : Store → string → string → list state_values * Store.
Variable graph_get_state : Store → string → state_values.

(** X3: a step whose state has no "messages" entry, or an empty history,
    ends the run with [KeyError], respectively [IndexError]: the events of
    the steps before it have been yielded, the steps after it are not
    read, and no terminal record is yielded. *)
Theorem stream_stops_at_unreadable store query cid items ms item rest store' :
  graph_stream store query cid = (items ++ item :: rest, store') →
  Forall2 (λ item m, last_message item = inr m) items ms →
  default [] (item !! "messages") = [] →
  stream lower graph_stream graph_get_state store query cid =
    Raised (omap progress_event ms)
      (match item !! "messages" with
       | None => KeyError
       | Some _ => IndexError
       end).
Proof.
  intros Hrun Hitems Hitem. unfold stream. rewrite Hrun.
  rewrite (stream_loop_stops items ms item rest
             (match item !! "messages" with
              | None => KeyError
              | Some _ => IndexError
              end) Hitems); [done|].
  unfold last_message. destruct (item !! "messages") as [h|]; [|done].
  simpl in Hitem. by subst h.
Qed.

(** X4: however a run ends, it yields at most one event per step of the
    trace before the terminal record, and each of these events carries one
    of the three progress texts; a run that ends normally adds exactly the
    record of the classifier, so that a run over an empty trace yields
    that record alone. *)
Theorem stream_events_bound store query cid items store' :
  graph_stream store query cid = (items, store') →
  ∃ steps,
    length steps ≤ length items ∧
    Forall (λ e, content e ∈ progress_texts) steps ∧
    (stream lower graph_stream graph_get_state store query cid
       = Returned
           (steps ++ [get_agent_response lower graph_get_state store' cid])
           store'
     ∨ ∃ e, stream lower graph_stream graph_get_state store query cid
              = Raised steps e).
Proof.
  intros Hrun. exists (stream_loop items).1.
  split; [apply stream_loop_length|]. split; [apply stream_loop_texts|].
  unfold stream. rewrite Hrun.
  destruct (stream_loop items) as [events [e|]]; simpl; eauto.
Qed.

End StreamerRuns.

(** X5: the progress events of a trace depend on the latest message of each
    step only, and on it only through its kind and the name of its first
    tool call: the earlier history, the text of the message, the arguments
    of the call and every further call of the batch change nothing. *)
Theorem stream_loop_same_signal items1 items2 ms1 ms2 :
  Forall2 (λ item m, last_message item = inr m) items1 ms1 →
  Forall2 (λ item m, last_message item = inr m) items2 ms2 →
  Forall2 same_signal ms1 ms2 →
  stream_loop items1 = stream_loop items2.
Proof.
  intros H1 H2 Hsame.
  rewrite (stream_loop_steps _ _ H1), (stream_loop_steps _ _ H2). f_equal.
  clear H1 H2. induction Hsame as [|m1 m2 ms1' ms2' Hm _ IH]; [done|].
  cbn [omap list_omap]. by rewrite (progress_event_same_signal _ _ Hm), IH.
Qed.

Lemma stream_stops_at_unreadable_witness :
  stream Str.ascii_lower (fixed_graph broken_trace) memory_get_state ∅ "hi" "ctx"
  = Raised [Event false false "Performing calculation..."] IndexError.
Proof.
  etrans.
  - apply (stream_stops_at_unreadable Str.ascii_lower (fixed_graph broken_trace)
             memory_get_state ∅ "hi" "ctx"
             (take 2 broken_trace)
             [HumanMessage (StrContent "hi");
              AIMessage (StrContent "") [ToolCall (Some "calculator") ∅ None]]
             {[ "messages" := [] ]}
             (drop 3 broken_trace) ∅).
    + reflexivity.
    + repeat constructor.
    + reflexivity.
  - reflexivity.
Defined.

Lemma stream_events_bound_witness :
  ∃ steps,
    length steps ≤ 4 ∧
    Forall (λ e, content e ∈ progress_texts) steps ∧
    (stream Str.ascii_lower (replay_stream sum_script) memory_get_state
       ∅ "What is 25 plus 17?" "ctx"
     = Returned
         (steps ++
            [get_agent_response Str.ascii_lower memory_get_state
               (replay_stream sum_script ∅ "What is 25 plus 17?" "ctx").2 "ctx"])
         (replay_stream sum_script ∅ "What is 25 plus 17?" "ctx").2
     ∨ ∃ e, stream Str.ascii_lower (replay_stream sum_script) memory_get_state
              ∅ "What is 25 plus 17?" "ctx" = Raised steps e).
Proof.
  apply (stream_events_bound Str.ascii_lower (replay_stream sum_script)
           memory_get_state ∅ "What is 25 plus 17?" "ctx"
           (replay_stream sum_script ∅ "What is 25 plus 17?" "ctx").1).
  reflexivity.
Defined.

Lemma stream_loop_same_signal_witness :
  stream_loop (replay_from [] sum_script) = stream_loop batch_trace.
Proof.
  apply (stream_loop_same_signal (replay_from [] sum_script) batch_trace
           sum_script
           [AIMessage (StrContent "Let me compute.")
              [ToolCall (Some "calculator") ∅ None;
               ToolCall (Some "get_greeting") ∅ None];
            ToolMessage (StrContent "Hello!") "call_2";
            HumanMessage (StrContent "thanks")]).
  - repeat constructor.
  - repeat constructor.
  - repeat constructor.
Defined.

(** ** The tools: errors and names *)

Lemma decimal_not_error s : decimal_numeral s = true → is_error s = false.
Proof.
  destruct s as [|c s]; [done|]. unfold decimal_numeral, is_error. simpl.
  intros H. apply andb_true_iff in H as [H _].
  destruct (bool_decide ("E"%char = c)) eqn:Hc; [|done].
  apply bool_decide_eq_true in Hc as <-. done.
Qed.

Section ToolResults.

Variable repr_finite : float → string.

(** The text of a finite float is a decimal numeral. *)
Hypothesis repr_decimal : ∀ x, decimal_numeral (repr_finite x) = true.

Lemma str_float_not_error x : is_error (str_float repr_finite x) = false.
Proof.
  unfold str_float. destruct (classify x); try done; by apply decimal_not_error.
Qed.

(** X6: the calculator reports an error exactly when the operation is none
    of the four, or is a division by a float equal to zero; every other
    call returns the text of a float, which never reads as an error. *)
Theorem calculator_error_iff operation a b :
  is_error (calculator repr_finite operation a b) = true ↔
  operation ∉ ["add"; "subtract"; "multiply"; "divide"]%string ∨
  (operation = "divide"%string ∧ (b =? 0)%float = true).
Proof.
  unfold calculator. repeat case_bool_decide; subst.
  - rewrite str_float_not_error. split; [done|].
    intros [Hx|[Hx _]]; [|done]. exfalso. apply Hx. set_solver.
  - rewrite str_float_not_error. split; [done|].
    intros [Hx|[Hx _]]; [|done]. exfalso. apply Hx. set_solver.
  - rewrite str_float_not_error. split; [done|].
    intros [Hx|[Hx _]]; [|done]. exfalso. apply Hx. set_solver.
  - destruct (b =? 0)%float eqn:Hb.
    + split; [auto|done].
    + rewrite str_float_not_error. split; [done|].
      intros [Hx|[_ Hx]]; [|done]. exfalso. apply Hx. set_solver.
  - split; [|done]. intros _. left. intros Hin.
    repeat (apply elem_of_cons in Hin as [->|Hin]; [done|]).
    by apply elem_of_nil in Hin.
Qed.

End ToolResults.

Lemma calculator_error_iff_witness :
  is_error (calculator (λ _, "0.0"%string) "divide" 1 0) = true.
Proof.
  refine (proj2 (calculator_error_iff (λ _, "0.0"%string) _ "divide" 1 0) _).
  - reflexivity.
  - right. split; reflexivity.
Defined.

(** X7: the greeting determines the name: two calls return the same
    greeting only for the same name, the omitted name counting as
    "friend". *)
Theorem get_greeting_inj name1 name2 :
  get_greeting name1 = get_greeting name2 →
  default "friend"%string name1 = default "friend"%string name2.
Proof.
  unfold get_greeting. intros H.
  apply (inj (String.append "Hello ")) in H.
  by apply append_inj_r in H.
Qed.

Lemma get_greeting_inj_witness :
  default "friend"%string None = default "friend"%string (Some "friend"%string).
Proof. apply (get_greeting_inj None (Some "friend"%string)). reflexivity. Defined.

(** ** Startup *)

Section Startup.

Context {Server : Type}.
Variable build_server : AgentCard → string + Server.
Variable uvicorn_run : Server → string → Z → option string.

(** X8: [main] ends with the record "Error: OPENAI_API_KEY environment
    variable not set." and exit status 1, without building or running a
    server, exactly when the variable is unset or set to the empty
    string. *)
Theorem main_missing_key environ host port :
  main build_server uvicorn_run environ host port
    = ([(ERROR, "Error: OPENAI_API_KEY environment variable not set."%string)],
       SystemExit 1)
  ↔ environ !! "OPENAI_API_KEY"%string = None
    ∨ environ !! "OPENAI_API_KEY"%string = Some ""%string.
Proof.
  unfold main. destruct (environ !! "OPENAI_API_KEY"%string) as [[|c key]|]; simpl.
  - split; auto.
  - destruct (build_server _) as [e|server].
    + split; [intros [=]|intros [[=]|[=]]].
    + destruct (uvicorn_run _ _ _); (split; [intros [=]|intros [[=]|[=]]]).
  - split; auto.
Qed.


End Startup.

(** A start with a key, on the default host and port. *)
Example main_serves :
  main (Server := unit) (λ _, inr ()) (λ _ _ _, None)
    {[ "OPENAI_API_KEY" := "sk-test" ]} "localhost" 8080
  = ([(INFO, "Starting Calculator & Greeting Agent on localhost:8080");
      (INFO, "Agent Card available at: http://localhost:8080/.well-known/agent.json")],
     Returns).
Proof. reflexivity. Qed.

Example agent_card_url :
  card_url (agent_card "localhost" 8080) = "http://localhost:8080/".
Proof. reflexivity. Qed.
